(** * MayaFlux: the Conan recipe [conanfile.py]

    A shallow embedding of the recipe class [MayafluxConan] and of the part
    of the Conan recipe API its methods call, followed by the properties of
    option finalisation, requirement resolution, toolchain variable
    generation and packaging metadata. *)

From Stdlib Require Import Ascii String.
From stdpp Require Import base strings gmap list fin_maps.

Open Scope string_scope.

(** ** The recipe API used by the methods *)

Module Conan.

(** Failures a recipe method can raise through the API calls it makes. *)
Inductive ConanException : Type :=
| OptionNotExist (field : string)
| DuplicatedRequirement (ref : string).

Inductive result (A : Type) : Type :=
| Ok (a : A)
| Raise (e : ConanException).
Arguments Ok {A} a.
Arguments Raise {A} e.

(** [settings = "os", "compiler", "build_type", "arch"] *)
Record Settings : Type := mkSettings {
  os : string;
  compiler : string;
  build_type : string;
  arch : string
}.

(** [self.options]: the recipe's own options by name, and the options
    forced on dependencies, [self.options[pkg].opt]. *)
Record Options : Type := mkOptions {
  package_options : gmap string bool;
  deps_package_options : gmap string (gmap string bool)
}.

(** [self.cpp_info.components[name]] *)
Record Component : Type := mkComponent {
  comp_libs : list string;
  comp_requires : list string
}.

Record CppInfo : Type := mkCppInfo {
  libs : list string;
  components : gmap string Component;
  bindirs : list string;
  libdirs : list string
}.

(** The recipe object [self], as far as the methods read and write it. *)
Record ConanFile : Type := mkConanFile {
  settings : Settings;
  options : Options;
  requires_ : list string;
  cpp_info : CppInfo
}.

(** A recipe method: it reads and mutates [self] and may raise. *)
Definition M (A : Type) : Type := ConanFile → result (A * ConanFile).

Definition ret {A} (a : A) : M A := λ self, Ok (a, self).

Definition bind {A B} (m : M A) (k : A → M B) : M B :=
  λ self, match m self with
          | Ok (a, self') => k a self'
          | Raise e => Raise e
          end.

Notation "x <- m ;; k" := (bind m (λ x, k))
  (at level 100, m at next level, right associativity).
Notation "m ;;; k" := (bind m (λ _, k))
  (at level 100, right associativity).

(** [self.settings.os] *)
Definition settings_os : M string := λ self, Ok (os (settings self), self).

(** [self.options.<field>]: reading an option that does not exist raises. *)
Definition get_option (field : string) : M bool :=
  λ self, match package_options (options self) !! field with
          | Some v => Ok (v, self)
          | None => Raise (OptionNotExist field)
          end.

Definition with_package_options (f : gmap string bool → gmap string bool)
    (self : ConanFile) : ConanFile :=
  mkConanFile (settings self)
    (mkOptions (f (package_options (options self)))
               (deps_package_options (options self)))
    (requires_ self) (cpp_info self).

Definition with_deps_package_options
    (f : gmap string (gmap string bool) → gmap string (gmap string bool))
    (self : ConanFile) : ConanFile :=
  mkConanFile (settings self)
    (mkOptions (package_options (options self))
               (f (deps_package_options (options self))))
    (requires_ self) (cpp_info self).

(** [del self.options.<field>]: the option must exist, and is dropped from
    the mapping. *)
Definition del_option (field : string) : M unit :=
  λ self, match package_options (options self) !! field with
          | Some _ => Ok (tt, with_package_options (delete field) self)
          | None => Raise (OptionNotExist field)
          end.

(** [self.options[pkg].<field> = v]: the entry of [pkg] is created when it
    is missing, then the field is assigned. *)
Definition set_dep_option (pkg field : string) (v : bool) : M unit :=
  λ self, Ok (tt, with_deps_package_options
                    (λ d, <[pkg := <[field := v]> (default ∅ (d !! pkg))]> d)
                    self).

(** A reference [name/version]: the part before the first slash and the
    part after it. *)
Fixpoint ref_name (ref : string) : string :=
  match ref with
  | EmptyString => EmptyString
  | String c rest =>
      if Ascii.eqb c "/"%char then EmptyString else String c (ref_name rest)
  end.

Fixpoint ref_version (ref : string) : string :=
  match ref with
  | EmptyString => EmptyString
  | String c rest => if Ascii.eqb c "/"%char then rest else ref_version rest
  end.

(** [self.requires(ref)]: appends the reference; a second requirement on
    the same package name raises. *)
Definition requires (ref : string) : M unit :=
  λ self,
    if existsb (λ r, String.eqb (ref_name r) (ref_name ref)) (requires_ self)
    then Raise (DuplicatedRequirement ref)
    else Ok (tt, mkConanFile (settings self) (options self)
                   (requires_ self ++ [ref]) (cpp_info self)).

Definition with_cpp_info (f : CppInfo → CppInfo) (self : ConanFile) : ConanFile :=
  mkConanFile (settings self) (options self) (requires_ self)
    (f (cpp_info self)).

(** [self.cpp_info.libs = l] *)
Definition set_libs (l : list string) : M unit :=
  λ self, Ok (tt, with_cpp_info
    (λ c, mkCppInfo l (components c) (bindirs c) (libdirs c)) self).

(** [self.cpp_info.bindirs = l] *)
Definition set_bindirs (l : list string) : M unit :=
  λ self, Ok (tt, with_cpp_info
    (λ c, mkCppInfo (libs c) (components c) l (libdirs c)) self).

(** [self.cpp_info.libdirs = l] *)
Definition set_libdirs (l : list string) : M unit :=
  λ self, Ok (tt, with_cpp_info
    (λ c, mkCppInfo (libs c) (components c) (bindirs c) l) self).

(** [self.cpp_info.components[name]]: a missing component is created
    empty on first access. *)
Definition get_component (name : string) (c : CppInfo) : Component :=
  default (mkComponent [] []) (components c !! name).

(** [self.cpp_info.components[name].libs = l] *)
Definition set_component_libs (name : string) (l : list string) : M unit :=
  λ self, Ok (tt, with_cpp_info
    (λ c, mkCppInfo (libs c)
            (<[name := mkComponent l (comp_requires (get_component name c))]>
               (components c))
            (bindirs c) (libdirs c)) self).

(** [self.cpp_info.components[name].requires = l] *)
Definition set_component_requires (name : string) (l : list string) : M unit :=
  λ self, Ok (tt, with_cpp_info
    (λ c, mkCppInfo (libs c)
            (<[name := mkComponent (comp_libs (get_component name c)) l]>
               (components c))
            (bindirs c) (libdirs c)) self).

(** Splitting a [default_options] key [pkg:option] at its first colon. *)
Fixpoint split_colon (k : string) : option (string * string) :=
  match k with
  | EmptyString => None
  | String c rest =>
      if Ascii.eqb c ":"%char then Some (EmptyString, rest)
      else match split_colon rest with
           | Some (p, o) => Some (String c p, o)
           | None => None
           end
  end.

(** Loading the declared defaults: a key with a package prefix goes to
    that dependency's options, any other key is an option of the recipe. *)
Fixpoint load_options (l : list (string * bool)) (o : Options) : Options :=
  match l with
  | [] => o
  | (k, v) :: l' =>
      load_options l'
        match split_colon k with
        | Some (pkg, field) =>
            mkOptions (package_options o)
              (<[pkg := <[field := v]>
                          (default ∅ (deps_package_options o !! pkg))]>
                 (deps_package_options o))
        | None =>
            mkOptions (<[k := v]> (package_options o)) (deps_package_options o)
        end
  end.

(** A dependency option as later stages read it. *)
Definition dep_option (o : Options) (pkg field : string) : option bool :=
  match deps_package_options o !! pkg with
  | Some m => m !! field
  | None => None
  end.

(** A version written in square brackets is a range; any other version
    string pins one exact version. *)
Definition is_version_range (v : string) : bool :=
  match v with
  | String c _ => Ascii.eqb c "["%char
  | EmptyString => false
  end.

(** The package names of the requirements declared so far. *)
Definition required_names (self : ConanFile) : list string :=
  ref_name <$> requires_ self.

(** The recipe object before any method has run: no requirement yet and
    the package layout the API starts from. *)
Definition new_conanfile (s : Settings) (o : Options) : ConanFile :=
  mkConanFile s o [] (mkCppInfo [] ∅ ["bin"] ["lib"]).

End Conan.

Import Conan.

(** ** The recipe class *)

Module MayafluxConan.

Definition name : string := "mayaflux".
Definition version : string := "0.1.0".

Definition default_options : list (string * bool) :=
  [ ("shared", true);
    ("fPIC", true);
    ("with_lila", true);
    ("ffmpeg:shared", true);
    ("llvm:shared", true);
    ("rtaudio:shared", true);
    ("glfw:shared", true);
    ("vulkan-loader:shared", true) ].

Definition initial_options : Options :=
  load_options default_options (mkOptions ∅ ∅).

Definition config_options : M unit :=
  os1 <- settings_os ;;
  (if String.eqb os1 "Windows" then del_option "fPIC" else ret tt) ;;;
  os2 <- settings_os ;;
  if String.eqb os2 "Windows" then
    set_dep_option "ffmpeg" "shared" false ;;;
    set_dep_option "rtaudio" "shared" false
  else ret tt.

Definition configure : M unit :=
  with_lila <- get_option "with_lila" ;;
  if negb with_lila then set_dep_option "llvm" "shared" false
  else ret tt.

Definition requirements : M unit :=
  requires "rtaudio/5.2.0" ;;;
  requires "eigen/3.4.0" ;;;
  requires "magic_enum/0.9.3" ;;;
  requires "glfw/3.3.8" ;;;
  requires "ffmpeg/5.1.2" ;;;
  requires "vulkan-loader/1.3.250.0" ;;;
  requires "vulkan-headers/1.3.250.0" ;;;
  os1 <- settings_os ;;
  (if String.eqb os1 "Windows" then requires "ms-gsl/4.0.0"
   else requires "tbb/2020.3") ;;;
  requires "fmt/10.0.0" ;;;
  requires "gtest/1.14.0" ;;;
  with_lila <- get_option "with_lila" ;;
  if with_lila then requires "llvm/17.0.6" else ret tt.

(** [generate]: the variables assigned on a new toolchain object, whose
    [variables] mapping starts empty. *)
Definition generate : M (gmap string bool) :=
  let tc : gmap string bool := ∅ in
  with_lila <- get_option "with_lila" ;;
  let tc := <["BUILD_LILA" := with_lila]> tc in
  let tc := <["MAYAFLUX_USE_CONAN" := true]> tc in
  os1 <- settings_os ;;
  let tc := if String.eqb os1 "Windows"
            then <["USE_PPL_BACKEND" := true]> tc
            else <["USE_TBB_BACKEND" := true]> tc in
  os2 <- settings_os ;;
  let tc := if String.eqb os2 "Macos"
            then <["MAYAFLUX_USE_FMT" := true]> tc
            else tc in
  ret tc.

Definition package_info : M unit :=
  set_libs ["MayaFluxLib"] ;;;
  with_lila <- get_option "with_lila" ;;
  (if with_lila then
     set_component_libs "lila" ["Lila"] ;;;
     set_component_requires "lila"
       ["llvm::llvm"; "clang::clang"; "mayaflux::mayaflux"]
   else ret tt) ;;;
  os1 <- settings_os ;;
  if String.eqb os1 "Windows" then set_bindirs ["bin"]
  else set_libdirs ["lib"].

End MayafluxConan.

Import MayafluxConan.

(** ** Targets, option states and requirement lists used below *)

(** The options a user gets with [-o with_lila=False] over the defaults. *)
Definition lila_off_options : Options :=
  load_options [("with_lila", false)] initial_options.

Definition linux_gcc : Settings := mkSettings "Linux" "gcc" "Release" "x86_64".
Definition windows_msvc : Settings := mkSettings "Windows" "msvc" "Release" "x86_64".
Definition macos_clang : Settings := mkSettings "Macos" "apple-clang" "Release" "armv8".

(** The references [requirements] declares, in the order of its calls. *)
Definition declared (os_ : string) (with_lila : bool) : list string :=
  [ "rtaudio/5.2.0"; "eigen/3.4.0"; "magic_enum/0.9.3"; "glfw/3.3.8";
    "ffmpeg/5.1.2"; "vulkan-loader/1.3.250.0"; "vulkan-headers/1.3.250.0" ]
  ++ [ if String.eqb os_ "Windows" then "ms-gsl/4.0.0" else "tbb/2020.3" ]
  ++ [ "fmt/10.0.0"; "gtest/1.14.0" ]
  ++ (if with_lila then [ "llvm/17.0.6" ] else []).

(** The order the specification describes: the nine unconditional
    dependencies, then the parallel-computing backend, then the JIT
    library. *)
Definition spec_unconditional : list string :=
  [ "rtaudio/5.2.0"; "eigen/3.4.0"; "magic_enum/0.9.3"; "glfw/3.3.8";
    "ffmpeg/5.1.2"; "vulkan-loader/1.3.250.0"; "vulkan-headers/1.3.250.0";
    "fmt/10.0.0"; "gtest/1.14.0" ].

Definition spec_order (os_ : string) (with_lila : bool) : list string :=
  spec_unconditional
  ++ [ if String.eqb os_ "Windows" then "ms-gsl/4.0.0" else "tbb/2020.3" ]
  ++ (if with_lila then [ "llvm/17.0.6" ] else []).

(** A run of [self.requires] calls, one per reference, in order. *)
Fixpoint requires_all (refs : list string) : M unit :=
  match refs with
  | [] => ret tt
  | r :: rs => requires r ;;; requires_all rs
  end.

(** The recipe with a further list of references appended to its
    requirements. *)
Definition with_requires (refs : list string) (self : ConanFile) : ConanFile :=
  mkConanFile (settings self) (options self) (requires_ self ++ refs)
    (cpp_info self).

Example initial_fPIC : package_options initial_options !! "fPIC" = Some true.
Proof. vm_compute. reflexivity. Qed.

Example initial_ffmpeg : dep_option initial_options "ffmpeg" "shared" = Some true.
Proof. vm_compute. reflexivity. Qed.

(** ** Reasoning about recipe methods *)

Section MethodLemmas.

Lemma bind_Ok {A B} (m : M A) (k : A → M B) self a self' :
  m self = Ok (a, self') → bind m k self = k a self'.
Proof. intros H. unfold bind. rewrite H. reflexivity. Qed.

Lemma bind_Raise {A B} (m : M A) (k : A → M B) self e :
  m self = Raise e → bind m k self = Raise e.
Proof. intros H. unfold bind. rewrite H. reflexivity. Qed.

Lemma get_option_Some field self v :
  package_options (options self) !! field = Some v →
  get_option field self = Ok (v, self).
Proof. intros H. unfold get_option. rewrite H. reflexivity. Qed.

Lemma get_option_None field self :
  package_options (options self) !! field = None →
  get_option field self = Raise (OptionNotExist field).
Proof. intros H. unfold get_option. rewrite H. reflexivity. Qed.

Lemma del_option_Some field self v :
  package_options (options self) !! field = Some v →
  del_option field self = Ok (tt, with_package_options (delete field) self).
Proof. intros H. unfold del_option. rewrite H. reflexivity. Qed.

(** Assigning one dependency option changes that option and no other. *)
Lemma dep_option_assign (d : gmap string (gmap string bool)) po pkg field v pkg' field' :
  dep_option (mkOptions po (<[pkg := <[field := v]> (default ∅ (d !! pkg))]> d))
             pkg' field'
  = if decide (pkg' = pkg ∧ field' = field) then Some v
    else dep_option (mkOptions po d) pkg' field'.
Proof.
  unfold dep_option. simpl.
  destruct (decide (pkg' = pkg)) as [->|Hp].
  - rewrite lookup_insert_eq.
    destruct (decide (field' = field)) as [->|Hf].
    + rewrite lookup_insert_eq. rewrite decide_True by done. reflexivity.
    + rewrite lookup_insert_ne by done.
      rewrite decide_False by (intros [_ ?]; done).
      destruct (d !! pkg); [reflexivity | apply lookup_empty].
  - rewrite lookup_insert_ne by done.
    rewrite decide_False by (intros [? _]; done). reflexivity.
Qed.

Lemma options_eta (o : Options) :
  mkOptions (package_options o) (deps_package_options o) = o.
Proof. destruct o; reflexivity. Qed.

Lemma dep_option_set pkg field v self pkg' field' :
  dep_option
    (options (with_deps_package_options
       (λ d, <[pkg := <[field := v]> (default ∅ (d !! pkg))]> d) self))
    pkg' field'
  = if decide (pkg' = pkg ∧ field' = field) then Some v
    else dep_option (options self) pkg' field'.
Proof.
  unfold with_deps_package_options. simpl.
  rewrite dep_option_assign. rewrite options_eta. reflexivity.
Qed.

Lemma deps_lookup_set pkg field v self :
  deps_package_options
    (options (with_deps_package_options
       (λ d, <[pkg := <[field := v]> (default ∅ (d !! pkg))]> d) self))
    !! pkg
  = Some (<[field := v]>
            (default ∅ (deps_package_options (options self) !! pkg))).
Proof. unfold with_deps_package_options. simpl. apply lookup_insert_eq. Qed.

End MethodLemmas.

(** ** Option finalisation: [config_options] *)

Section ConfigOptions.

(** What [config_options] returns on a Windows target. *)
Lemma config_options_windows self v :
  os (settings self) = "Windows" →
  package_options (options self) !! "fPIC" = Some v →
  config_options self
  = Ok (tt, with_deps_package_options
              (λ d, <["rtaudio" := <["shared" := false]> (default ∅ (d !! "rtaudio"))]> d)
           (with_deps_package_options
              (λ d, <["ffmpeg" := <["shared" := false]> (default ∅ (d !! "ffmpeg"))]> d)
           (with_package_options (delete "fPIC") self))).
Proof.
  intros Hos Hf. unfold config_options, bind, settings_os.
  rewrite Hos. simpl. rewrite (del_option_Some _ _ _ Hf).
  simpl. rewrite Hos. reflexivity.
Qed.

(** On any other target [config_options] changes nothing. *)
Lemma config_options_other self :
  os (settings self) ≠ "Windows" →
  config_options self = Ok (tt, self).
Proof.
  intros Hos. unfold config_options, bind, settings_os.
  apply String.eqb_neq in Hos. rewrite Hos. simpl. rewrite Hos. reflexivity.
Qed.

(** C4. After [config_options], run on options in which [fPIC] is declared,
    the [fPIC] option is present if and only if the target is not Windows;
    on Windows the lookup of [fPIC] finds nothing: the option is deleted,
    not given a value. *)
Theorem config_options_fPIC (self : ConanFile) :
  is_Some (package_options (options self) !! "fPIC") →
  ∃ self', config_options self = Ok (tt, self') ∧
    (is_Some (package_options (options self') !! "fPIC")
       ↔ os (settings self) ≠ "Windows") ∧
    (os (settings self) = "Windows" →
       package_options (options self') !! "fPIC" = None) ∧
    (os (settings self) ≠ "Windows" →
       package_options (options self') !! "fPIC"
       = package_options (options self) !! "fPIC").
Proof.
  intros [v Hv].
  destruct (decide (os (settings self) = "Windows")) as [Hw|Hw].
  - eexists. split; [apply (config_options_windows _ v Hw Hv)|].
    simpl. rewrite lookup_delete_eq.
    split; [|split]; [|done|done].
    split; [intros [? ?]; done | done].
  - exists self. split; [apply (config_options_other _ Hw)|].
    split; [|split]; [|done|done].
    split; [done | intros _; by exists v].
Qed.

Lemma config_options_fPIC_witness :
  (∃ self', config_options
      (new_conanfile (mkSettings "Windows" "msvc" "Release" "x86_64")
                     initial_options) = Ok (tt, self') ∧
     package_options (options self') !! "fPIC" = None) ∧
  (∃ self', config_options
      (new_conanfile (mkSettings "Linux" "gcc" "Release" "x86_64")
                     initial_options) = Ok (tt, self') ∧
     package_options (options self') !! "fPIC" = Some true).
Proof.
  split.
  - destruct (config_options_fPIC
      (new_conanfile (mkSettings "Windows" "msvc" "Release" "x86_64")
                     initial_options))
      as (self' & Hrun & _ & Hwin & _).
    + exists true. vm_compute. reflexivity.
    + exists self'. split; [exact Hrun | apply Hwin; reflexivity].
  - destruct (config_options_fPIC
      (new_conanfile (mkSettings "Linux" "gcc" "Release" "x86_64")
                     initial_options))
      as (self' & Hrun & _ & _ & Hoth).
    + exists true. vm_compute. reflexivity.
    + exists self'. split; [exact Hrun |].
      rewrite Hoth by (simpl; discriminate). vm_compute. reflexivity.
Defined.

(** C6. On a Windows target with the default options, [config_options]
    sets the [shared] option of [ffmpeg] and of [rtaudio] to false; every
    other dependency option keeps its default, so [llvm], [glfw] and
    [vulkan-loader] stay shared. *)
Theorem config_options_windows_static (s : Settings) :
  os s = "Windows" →
  ∃ self', config_options (new_conanfile s initial_options) = Ok (tt, self') ∧
    dep_option (options self') "ffmpeg" "shared" = Some false ∧
    dep_option (options self') "rtaudio" "shared" = Some false ∧
    dep_option initial_options "ffmpeg" "shared" = Some true ∧
    dep_option initial_options "rtaudio" "shared" = Some true ∧
    dep_option (options self') "llvm" "shared" = Some true ∧
    dep_option (options self') "glfw" "shared" = Some true ∧
    dep_option (options self') "vulkan-loader" "shared" = Some true ∧
    (∀ pkg field,
       dep_option (options self') pkg field = Some false
       ↔ (pkg = "ffmpeg" ∨ pkg = "rtaudio") ∧ field = "shared") ∧
    (∀ pkg field, pkg ≠ "ffmpeg" → pkg ≠ "rtaudio" →
       dep_option (options self') pkg field
       = dep_option initial_options pkg field).
Proof.
  intros Hos.
  eexists. split.
  { apply (config_options_windows _ true); [exact Hos | vm_compute; reflexivity]. }
  assert (Hall : ∀ pkg field,
    dep_option (options
      (with_deps_package_options
         (λ d, <["rtaudio" := <["shared" := false]> (default ∅ (d !! "rtaudio"))]> d)
      (with_deps_package_options
         (λ d, <["ffmpeg" := <["shared" := false]> (default ∅ (d !! "ffmpeg"))]> d)
      (with_package_options (delete "fPIC") (new_conanfile s initial_options)))))
      pkg field
    = if decide (pkg = "rtaudio" ∧ field = "shared") then Some false
      else if decide (pkg = "ffmpeg" ∧ field = "shared") then Some false
      else dep_option initial_options pkg field).
  { intros pkg field. rewrite !dep_option_set. reflexivity. }
  assert (Hdef : ∀ pkg field, dep_option initial_options pkg field ≠ Some false).
  { intros pkg field. unfold dep_option.
    change (deps_package_options initial_options)
      with (<["vulkan-loader" := {["shared" := true]}]>
             (<["glfw" := {["shared" := true]}]>
             (<["rtaudio" := {["shared" := true]}]>
             (<["llvm" := {["shared" := true]}]>
             (<["ffmpeg" := {["shared" := true]}]> (∅ : gmap string (gmap string bool))))))).
    repeat (rewrite lookup_insert; case_decide;
            [ destruct (decide (field = "shared")) as [->|?];
              [ rewrite lookup_singleton_eq; discriminate
              | rewrite lookup_singleton_ne by done; discriminate ] | ]).
    rewrite lookup_empty. discriminate. }
  repeat apply conj.
  1-2, 5-7: rewrite Hall; vm_compute; reflexivity.
  1-2: vm_compute; reflexivity.
  - intros pkg field. rewrite Hall. clear Hall. split.
    + destruct (decide (pkg = "rtaudio" ∧ field = "shared")) as [[-> ->]|_];
        [intros _; split; [right|]; reflexivity|].
      destruct (decide (pkg = "ffmpeg" ∧ field = "shared")) as [[-> ->]|_];
        [intros _; split; [left|]; reflexivity|].
      intros H. exfalso. exact (Hdef _ _ H).
    + intros [[-> | ->] ->].
      * rewrite decide_False by (intros [? _]; discriminate).
        rewrite decide_True by done. reflexivity.
      * rewrite decide_True by done. reflexivity.
  - intros pkg field H1 H2. rewrite Hall.
    rewrite decide_False by (intros [? _]; done).
    rewrite decide_False by (intros [? _]; done). reflexivity.
Qed.

Lemma config_options_windows_static_witness :
  ∃ self',
    config_options
      (new_conanfile (mkSettings "Windows" "msvc" "Release" "x86_64")
                     initial_options) = Ok (tt, self') ∧
    dep_option (options self') "ffmpeg" "shared" = Some false ∧
    dep_option (options self') "rtaudio" "shared" = Some false ∧
    dep_option (options self') "llvm" "shared" = Some true.
Proof.
  destruct (config_options_windows_static
              (mkSettings "Windows" "msvc" "Release" "x86_64"))
    as (self' & Hrun & Hf & Hr & _ & _ & Hl & _).
  - reflexivity.
  - exists self'. repeat split; assumption.
Defined.

End ConfigOptions.

(** ** Option reconciliation: [configure] *)

Section Configure.

Lemma configure_lila_off self :
  package_options (options self) !! "with_lila" = Some false →
  configure self
  = Ok (tt, with_deps_package_options
              (λ d, <["llvm" := <["shared" := false]> (default ∅ (d !! "llvm"))]> d)
              self).
Proof.
  intros H. unfold configure.
  rewrite (bind_Ok _ _ _ _ _ (get_option_Some _ _ _ H)). reflexivity.
Qed.

Lemma configure_lila_on self :
  package_options (options self) !! "with_lila" = Some true →
  configure self = Ok (tt, self).
Proof.
  intros H. unfold configure.
  rewrite (bind_Ok _ _ _ _ _ (get_option_Some _ _ _ H)). reflexivity.
Qed.

(** C2, as the code has it. With [with_lila] false, [configure] succeeds
    and the dependency options still hold an entry for [llvm], whose
    [shared] option is assigned false: the override is given a value, it
    is not removed. *)
Theorem configure_llvm_static (self : ConanFile) :
  package_options (options self) !! "with_lila" = Some false →
  ∃ self', configure self = Ok (tt, self') ∧
    is_Some (deps_package_options (options self') !! "llvm") ∧
    dep_option (options self') "llvm" "shared" = Some false.
Proof.
  intros H. eexists. split; [apply (configure_lila_off _ H)|].
  split.
  - rewrite deps_lookup_set. eexists; reflexivity.
  - rewrite dep_option_set. rewrite decide_True by done. reflexivity.
Qed.

Lemma configure_llvm_static_witness :
  ∃ self', configure (new_conanfile linux_gcc lila_off_options) = Ok (tt, self') ∧
    dep_option (options self') "llvm" "shared" = Some false.
Proof.
  destruct (configure_llvm_static (new_conanfile linux_gcc lila_off_options))
    as (self' & Hrun & _ & Hs).
  - vm_compute. reflexivity.
  - exists self'. split; assumption.
Defined.

(** C2, as the specification words it, fails: with the defaults and
    [with_lila] switched off, [configure] returns options in which the
    entry of [llvm] is still there. *)
Lemma configure_llvm_entry_not_removed :
  package_options (options (new_conanfile linux_gcc lila_off_options))
    !! "with_lila" = Some false ∧
  ¬ (∀ self',
       configure (new_conanfile linux_gcc lila_off_options) = Ok (tt, self') →
       deps_package_options (options self') !! "llvm" = None).
Proof.
  split; [vm_compute; reflexivity|].
  intros Hclaim.
  assert (Hoff : package_options
                   (options (new_conanfile linux_gcc lila_off_options))
                   !! "with_lila" = Some false) by (vm_compute; reflexivity).
  specialize (Hclaim _ (configure_lila_off _ Hoff)).
  rewrite deps_lookup_set in Hclaim. discriminate Hclaim.
Qed.

(** C9. [configure] only ever touches the [shared] option of [llvm]: the
    settings, the recipe's own options ([shared], [with_lila] and [fPIC]
    when present), the requirements and the package metadata are the same
    afterwards, as is every other dependency option; with [with_lila] true
    the whole recipe state is unchanged. *)
Theorem configure_frame (self : ConanFile) (b : bool) :
  package_options (options self) !! "with_lila" = Some b →
  ∃ self', configure self = Ok (tt, self') ∧
    settings self' = settings self ∧
    package_options (options self') = package_options (options self) ∧
    requires_ self' = requires_ self ∧
    cpp_info self' = cpp_info self ∧
    (∀ pkg field, ¬ (pkg = "llvm" ∧ field = "shared") →
       dep_option (options self') pkg field
       = dep_option (options self) pkg field) ∧
    (∀ pkg, pkg ≠ "llvm" →
       deps_package_options (options self') !! pkg
       = deps_package_options (options self) !! pkg) ∧
    (b = true → self' = self).
Proof.
  intros H. destruct b.
  - exists self. split; [apply (configure_lila_on _ H)|].
    repeat apply conj; reflexivity.
  - eexists. split; [apply (configure_lila_off _ H)|].
    repeat apply conj; try reflexivity.
    + intros pkg field Hne. rewrite dep_option_set.
      rewrite decide_False by exact Hne. reflexivity.
    + intros pkg Hne. simpl. rewrite lookup_insert_ne by done. reflexivity.
    + discriminate.
Qed.

Lemma configure_frame_witness :
  ∃ self', configure (new_conanfile windows_msvc lila_off_options) = Ok (tt, self') ∧
    settings self' = windows_msvc ∧
    dep_option (options self') "ffmpeg" "shared" = Some true.
Proof.
  destruct (configure_frame (new_conanfile windows_msvc lila_off_options) false)
    as (self' & Hrun & Hs & _ & _ & _ & Hdep & _).
  - vm_compute. reflexivity.
  - exists self'. split; [exact Hrun|]. split; [exact Hs|].
    rewrite Hdep by (intros [? _]; discriminate). vm_compute. reflexivity.
Defined.

End Configure.

(** ** Requirement resolution: [requirements] *)

Lemma NoDup_fmap_eq {A B} (f : A → B) (l : list A) x y :
  NoDup (f <$> l) → x ∈ l → y ∈ l → f x = f y → x = y.
Proof.
  induction l as [|a l IH]; simpl; intros Hnd Hx Hy Hf.
  - by apply elem_of_nil in Hx.
  - apply NoDup_cons in Hnd as [Hna Hnd].
    apply elem_of_cons in Hx as [->|Hx]; apply elem_of_cons in Hy as [->|Hy].
    + reflexivity.
    + exfalso. apply Hna. rewrite Hf. by apply list_elem_of_fmap_2.
    + exfalso. apply Hna. rewrite <- Hf. by apply list_elem_of_fmap_2.
    + by apply IH.
Qed.

Lemma declared_names_NoDup os_ b : NoDup (ref_name <$> declared os_ b).
Proof.
  unfold declared.
  destruct (String.eqb os_ "Windows"), b;
    apply (bool_decide_unpack _); vm_compute; reflexivity.
Qed.

Lemma declared_versions_exact os_ b :
  Forall (λ r, is_version_range (ref_version r) = false) (declared os_ b).
Proof.
  unfold declared.
  destruct (String.eqb os_ "Windows"), b;
    repeat (apply Forall_cons; split; [reflexivity|]); apply Forall_nil_2.
Qed.

Lemma declared_names os_ b x :
  x ∈ ref_name <$> declared os_ b → x ≠ "clang" ∧ (x = "llvm" → b = true).
Proof.
  unfold declared.
  destruct (String.eqb os_ "Windows"), b; simpl;
    rewrite ?elem_of_cons, elem_of_nil;
    intros Hx; decompose [or] Hx; subst; try done.
Qed.

Section Requirements.

(** The resolver runs on a recipe that has declared nothing yet. *)
Variable self : ConanFile.
Hypothesis Hfresh : requires_ self = [].

Lemma requirements_run b :
  package_options (options self) !! "with_lila" = Some b →
  requirements self
  = Ok (tt, mkConanFile (settings self) (options self)
              (declared (os (settings self)) b) (cpp_info self)).
Proof.
  intros Hl.
  unfold requirements, bind, requires, settings_os, get_option, declared.
  cbn [requires_ settings options cpp_info]. rewrite Hfresh. simpl.
  destruct (String.eqb (os (settings self)) "Windows"); simpl; rewrite Hl;
    destruct b; reflexivity.
Qed.

Lemma requirements_option_missing :
  package_options (options self) !! "with_lila" = None →
  requirements self = Raise (OptionNotExist "with_lila").
Proof.
  intros Hl.
  unfold requirements, bind, requires, settings_os, get_option.
  cbn [requires_ settings options cpp_info]. rewrite Hfresh. simpl.
  destruct (String.eqb (os (settings self)) "Windows"); simpl; rewrite Hl;
    reflexivity.
Qed.

(** C1, as the code has it. From a recipe with no requirement yet,
    [requirements] declares: rtaudio, eigen, magic_enum, glfw, ffmpeg,
    vulkan-loader and vulkan-headers; then the parallel-computing backend
    of the platform (ms-gsl on Windows, tbb elsewhere); then fmt and gtest;
    then llvm when [with_lila] is true. The list is the concatenation of
    these in the order of the calls, and nothing else of the recipe
    changes. *)
Theorem requirements_order (b : bool) :
  package_options (options self) !! "with_lila" = Some b →
  ∃ self', requirements self = Ok (tt, self') ∧
    requires_ self'
    = ([ "rtaudio/5.2.0"; "eigen/3.4.0"; "magic_enum/0.9.3"; "glfw/3.3.8";
         "ffmpeg/5.1.2"; "vulkan-loader/1.3.250.0"; "vulkan-headers/1.3.250.0" ]
       ++ [ if String.eqb (os (settings self)) "Windows"
            then "ms-gsl/4.0.0" else "tbb/2020.3" ]
       ++ [ "fmt/10.0.0"; "gtest/1.14.0" ]
       ++ (if b then [ "llvm/17.0.6" ] else []))%list ∧
    settings self' = settings self ∧
    options self' = options self ∧
    cpp_info self' = cpp_info self.
Proof.
  intros Hl. eexists. split; [apply (requirements_run b Hl)|].
  repeat apply conj; reflexivity.
Qed.

(** C5. From a recipe with no requirement yet: when [with_lila] is false,
    [requirements] succeeds and declares neither [llvm] nor [clang]; and
    whenever the declared list contains [llvm], [with_lila] is true. No
    run declares [clang]. *)
Theorem requirements_without_lila :
  (package_options (options self) !! "with_lila" = Some false →
   ∃ self', requirements self = Ok (tt, self') ∧
     ("llvm" ∉ required_names self') ∧ ("clang" ∉ required_names self')) ∧
  (∀ self', requirements self = Ok (tt, self') →
     "llvm" ∈ required_names self' →
     package_options (options self) !! "with_lila" = Some true) ∧
  (∀ self', requirements self = Ok (tt, self') →
     "clang" ∉ required_names self').
Proof.
  repeat apply conj.
  - intros Hl. eexists. split; [apply (requirements_run false Hl)|].
    unfold required_names. cbn [requires_]. split; intros Hin.
    + by destruct (declared_names _ _ _ Hin) as [_ Hb]; specialize (Hb eq_refl).
    + by destruct (declared_names _ _ _ Hin) as [Hc _].
  - intros self' Hrun Hin.
    destruct (package_options (options self) !! "with_lila") as [b|] eqn:Hl.
    + rewrite (requirements_run b Hl) in Hrun.
      injection Hrun as <-. unfold required_names in Hin. cbn [requires_] in Hin.
      destruct (declared_names _ _ _ Hin) as [_ Hb]. by rewrite Hb.
    + rewrite (requirements_option_missing Hl) in Hrun. discriminate.
  - intros self' Hrun Hin.
    destruct (package_options (options self) !! "with_lila") as [b|] eqn:Hl.
    + rewrite (requirements_run b Hl) in Hrun.
      injection Hrun as <-. unfold required_names in Hin. cbn [requires_] in Hin.
      by destruct (declared_names _ _ _ Hin) as [Hc _].
    + rewrite (requirements_option_missing Hl) in Hrun. discriminate.
Qed.

(** C10. From a recipe with no requirement yet, [requirements] never
    raises the duplicated-requirement error; it succeeds whenever
    [with_lila] is declared; and the list it declares names each package
    once, each with an exact version, so a package has one version. *)
Theorem requirements_no_conflict :
  (∀ ref, requirements self ≠ Raise (DuplicatedRequirement ref)) ∧
  (is_Some (package_options (options self) !! "with_lila") →
   ∃ self', requirements self = Ok (tt, self')) ∧
  (∀ self', requirements self = Ok (tt, self') →
     NoDup (required_names self') ∧
     Forall (λ r, is_version_range (ref_version r) = false) (requires_ self') ∧
     (∀ r1 r2, r1 ∈ requires_ self' → r2 ∈ requires_ self' →
        ref_name r1 = ref_name r2 → ref_version r1 = ref_version r2)).
Proof.
  destruct (package_options (options self) !! "with_lila") as [b|] eqn:Hl.
  - pose proof (requirements_run b Hl) as Hrun.
    repeat apply conj.
    + intros ref. rewrite Hrun. discriminate.
    + intros _. eexists. exact Hrun.
    + intros self' Hrun'. rewrite Hrun in Hrun'. injection Hrun' as <-.
      unfold required_names. cbn [requires_]. repeat apply conj.
      * apply declared_names_NoDup.
      * apply declared_versions_exact.
      * intros r1 r2 H1 H2 Hn.
        by rewrite (NoDup_fmap_eq ref_name _ r1 r2
                      (declared_names_NoDup _ _) H1 H2 Hn).
  - pose proof (requirements_option_missing Hl) as Hrun.
    repeat apply conj.
    + intros ref. rewrite Hrun. discriminate.
    + intros [? ?]. discriminate.
    + intros self' Hrun'. rewrite Hrun in Hrun'. discriminate.
Qed.

End Requirements.

Lemma requirements_order_witness :
  ∃ self',
    requirements (new_conanfile windows_msvc initial_options) = Ok (tt, self') ∧
    requires_ self'
    = [ "rtaudio/5.2.0"; "eigen/3.4.0"; "magic_enum/0.9.3"; "glfw/3.3.8";
        "ffmpeg/5.1.2"; "vulkan-loader/1.3.250.0"; "vulkan-headers/1.3.250.0";
        "ms-gsl/4.0.0"; "fmt/10.0.0"; "gtest/1.14.0"; "llvm/17.0.6" ].
Proof.
  destruct (requirements_order (new_conanfile windows_msvc initial_options)
              eq_refl true)
    as (self' & Hrun & Hreq & _).
  - vm_compute. reflexivity.
  - exists self'. split; [exact Hrun | exact Hreq].
Defined.

(** C1, as the specification words it, fails: on Linux with the default
    options the backend [tbb] is declared before [fmt] and [gtest], not
    after the nine unconditional dependencies. *)
Lemma requirements_order_not_spec :
  ∃ self',
    requirements (new_conanfile linux_gcc initial_options) = Ok (tt, self') ∧
    requires_ self' ≠ spec_order "Linux" true ∧
    requires_ self' !! 7%nat = Some "tbb/2020.3" ∧
    spec_order "Linux" true !! 7%nat = Some "fmt/10.0.0".
Proof.
  eexists. split.
  { apply (requirements_run (new_conanfile linux_gcc initial_options)
             eq_refl true).
    vm_compute; reflexivity. }
  split; [|split; reflexivity].
  intros H. apply (f_equal (λ l : list string, l !! 7%nat)) in H.
  vm_compute in H. discriminate H.
Qed.

Lemma requirements_without_lila_witness :
  ∃ self',
    requirements (new_conanfile linux_gcc lila_off_options) = Ok (tt, self') ∧
    ("llvm" ∉ required_names self') ∧ ("clang" ∉ required_names self').
Proof.
  destruct (requirements_without_lila
              (new_conanfile linux_gcc lila_off_options) eq_refl)
    as (Hoff & _ & _).
  apply Hoff. vm_compute. reflexivity.
Defined.

Lemma requirements_no_conflict_witness :
  ∃ self',
    requirements (new_conanfile macos_clang initial_options) = Ok (tt, self') ∧
    NoDup (required_names self').
Proof.
  destruct (requirements_no_conflict
              (new_conanfile macos_clang initial_options) eq_refl)
    as (_ & Hok & Hall).
  destruct Hok as [self' Hrun].
  - exists true. vm_compute. reflexivity.
  - exists self'. split; [exact Hrun|]. apply (Hall self' Hrun).
Defined.

(** ** Toolchain variables: [generate] *)

Section Generate.

(** [generate] reads [with_lila] and the target, and leaves the recipe as
    it found it. *)
Lemma generate_run self b :
  package_options (options self) !! "with_lila" = Some b →
  generate self
  = Ok ((if String.eqb (os (settings self)) "Macos"
         then <["MAYAFLUX_USE_FMT" := true]> else id)
          ((if String.eqb (os (settings self)) "Windows"
            then <["USE_PPL_BACKEND" := true]>
            else <["USE_TBB_BACKEND" := true]>)
             (<["MAYAFLUX_USE_CONAN" := true]>
                (<["BUILD_LILA" := b]> (∅ : gmap string bool)))),
        self).
Proof.
  intros Hl. unfold generate.
  rewrite (bind_Ok _ _ _ _ _ (get_option_Some _ _ _ Hl)).
  unfold bind, settings_os, ret.
  destruct (String.eqb (os (settings self)) "Macos");
    destruct (String.eqb (os (settings self)) "Windows"); reflexivity.
Qed.

(** C3. Whenever [with_lila] is declared, [generate] succeeds and sets
    exactly one of the two backend variables: on Windows
    [USE_PPL_BACKEND] is true and [USE_TBB_BACKEND] is not set; on any
    other target [USE_TBB_BACKEND] is true and [USE_PPL_BACKEND] is not
    set. *)
Theorem generate_parallel_backend (self : ConanFile) :
  is_Some (package_options (options self) !! "with_lila") →
  ∃ tc : gmap string bool, generate self = Ok (tc, self) ∧
    (os (settings self) = "Windows" →
       tc !! "USE_PPL_BACKEND" = Some true ∧ tc !! "USE_TBB_BACKEND" = None) ∧
    (os (settings self) ≠ "Windows" →
       tc !! "USE_TBB_BACKEND" = Some true ∧ tc !! "USE_PPL_BACKEND" = None).
Proof.
  intros [b Hl]. eexists. split; [apply (generate_run _ b Hl)|].
  split; intros Hos.
  - rewrite Hos. simpl. split.
    + apply lookup_insert_eq.
    + rewrite lookup_insert_ne by discriminate.
      rewrite lookup_insert_ne by discriminate.
      rewrite lookup_insert_ne by discriminate. apply lookup_empty.
  - pose proof Hos as Hw. apply String.eqb_neq in Hw. rewrite Hw.
    destruct (String.eqb (os (settings self)) "Macos"); simpl; split.
    + rewrite lookup_insert_ne by discriminate. apply lookup_insert_eq.
    + rewrite !lookup_insert_ne by discriminate. apply lookup_empty.
    + apply lookup_insert_eq.
    + rewrite !lookup_insert_ne by discriminate. apply lookup_empty.
Qed.

Lemma generate_parallel_backend_witness :
  (∃ tc : gmap string bool,
     generate (new_conanfile windows_msvc initial_options)
     = Ok (tc, new_conanfile windows_msvc initial_options) ∧
     tc !! "USE_PPL_BACKEND" = Some true ∧ tc !! "USE_TBB_BACKEND" = None) ∧
  (∃ tc : gmap string bool,
     generate (new_conanfile linux_gcc initial_options)
     = Ok (tc, new_conanfile linux_gcc initial_options) ∧
     tc !! "USE_TBB_BACKEND" = Some true ∧ tc !! "USE_PPL_BACKEND" = None).
Proof.
  split.
  - destruct (generate_parallel_backend
                (new_conanfile windows_msvc initial_options))
      as (tc & Hrun & Hwin & _).
    + exists true. vm_compute. reflexivity.
    + exists tc. split; [exact Hrun | apply Hwin; reflexivity].
  - destruct (generate_parallel_backend
                (new_conanfile linux_gcc initial_options))
      as (tc & Hrun & _ & Hoth).
    + exists true. vm_compute. reflexivity.
    + exists tc. split; [exact Hrun | apply Hoth; discriminate].
Defined.

(** C8. Whenever [with_lila] is declared, [generate] succeeds, and
    [MAYAFLUX_USE_FMT] is set to true if and only if the target is Macos;
    on every other target the variable is not set at all. *)
Theorem generate_use_fmt (self : ConanFile) :
  is_Some (package_options (options self) !! "with_lila") →
  ∃ tc : gmap string bool, generate self = Ok (tc, self) ∧
    (tc !! "MAYAFLUX_USE_FMT" = Some true ↔ os (settings self) = "Macos") ∧
    (os (settings self) ≠ "Macos" → tc !! "MAYAFLUX_USE_FMT" = None).
Proof.
  intros [b Hl]. eexists. split; [apply (generate_run _ b Hl)|].
  destruct (String.eqb_spec (os (settings self)) "Macos") as [Hm|Hm].
  - rewrite Hm. simpl. split; [|done].
    split; [done | intros _; apply lookup_insert_eq].
  - assert (Hnone : (if String.eqb (os (settings self)) "Windows"
                     then <["USE_PPL_BACKEND" := true]>
                     else <["USE_TBB_BACKEND" := true]>)
                      (<["MAYAFLUX_USE_CONAN" := true]>
                         (<["BUILD_LILA" := b]> (∅ : gmap string bool)))
                    !! "MAYAFLUX_USE_FMT" = None).
    { destruct (String.eqb (os (settings self)) "Windows");
        rewrite !lookup_insert_ne by discriminate; apply lookup_empty. }
    unfold id. rewrite Hnone. split; [|done].
    split; [discriminate | done].
Qed.

Lemma generate_use_fmt_witness :
  (∃ tc : gmap string bool,
     generate (new_conanfile macos_clang initial_options)
     = Ok (tc, new_conanfile macos_clang initial_options) ∧
     tc !! "MAYAFLUX_USE_FMT" = Some true) ∧
  (∃ tc : gmap string bool,
     generate (new_conanfile linux_gcc initial_options)
     = Ok (tc, new_conanfile linux_gcc initial_options) ∧
     tc !! "MAYAFLUX_USE_FMT" = None).
Proof.
  split.
  - destruct (generate_use_fmt (new_conanfile macos_clang initial_options))
      as (tc & Hrun & Hiff & _).
    + exists true. vm_compute. reflexivity.
    + exists tc. split; [exact Hrun | apply Hiff; reflexivity].
  - destruct (generate_use_fmt (new_conanfile linux_gcc initial_options))
      as (tc & Hrun & _ & Hoth).
    + exists true. vm_compute. reflexivity.
    + exists tc. split; [exact Hrun | apply Hoth; discriminate].
Defined.

End Generate.

(** ** Packaging metadata: [package_info] *)

Section PackageInfo.

(** C7. With [with_lila] true, [package_info] succeeds and the package
    metadata holds a component [lila] whose library is [Lila] and whose
    required targets are exactly [llvm::llvm], [clang::clang] and
    [mayaflux::mayaflux], in that order; the primary library is
    [MayaFluxLib]. *)
Theorem package_info_lila (self : ConanFile) :
  package_options (options self) !! "with_lila" = Some true →
  ∃ self', package_info self = Ok (tt, self') ∧
    libs (cpp_info self') = ["MayaFluxLib"] ∧
    components (cpp_info self') !! "lila"
    = Some (mkComponent ["Lila"]
              ["llvm::llvm"; "clang::clang"; "mayaflux::mayaflux"]).
Proof.
  intros Hl. unfold package_info.
  unfold bind at 1. simpl.
  assert (Hl' : ∀ c, package_options (options (with_cpp_info c self))
                       !! "with_lila" = Some true) by (intros c; exact Hl).
  rewrite (bind_Ok _ _ _ _ _ (get_option_Some _ _ _ (Hl' _))).
  unfold bind, settings_os. simpl.
  destruct (String.eqb (os (settings self)) "Windows"); simpl;
    (eexists; split; [reflexivity|]; simpl; split; [reflexivity|]);
    rewrite lookup_insert_eq; unfold get_component; simpl;
    rewrite lookup_insert_eq; reflexivity.
Qed.

Lemma package_info_lila_witness :
  ∃ self',
    package_info (new_conanfile linux_gcc initial_options) = Ok (tt, self') ∧
    components (cpp_info self') !! "lila"
    = Some (mkComponent ["Lila"]
              ["llvm::llvm"; "clang::clang"; "mayaflux::mayaflux"]).
Proof.
  destruct (package_info_lila (new_conanfile linux_gcc initial_options))
    as (self' & Hrun & _ & Hc).
  - vm_compute. reflexivity.
  - exists self'. split; [exact Hrun | exact Hc].
Defined.

End PackageInfo.

(** * Further properties of the recipe methods *)

(** ** [config_options]: failure, re-runs and frame *)







(** X4. Frame of [config_options]: the settings, the requirements and the
    package metadata are untouched; of the recipe's own options only
    [fPIC] can change; of the dependency options only the [shared] option
    of [ffmpeg] and of [rtaudio] can change; off Windows the whole state
    is returned as it was. *)
Theorem config_options_frame (self : ConanFile) :
  is_Some (package_options (options self) !! "fPIC") →
  ∃ self', config_options self = Ok (tt, self') ∧
    settings self' = settings self ∧
    requires_ self' = requires_ self ∧
    cpp_info self' = cpp_info self ∧
    (∀ k, k ≠ "fPIC" →
       package_options (options self') !! k
       = package_options (options self) !! k) ∧
    (∀ pkg field, ¬ ((pkg = "ffmpeg" ∨ pkg = "rtaudio") ∧ field = "shared") →
       dep_option (options self') pkg field
       = dep_option (options self) pkg field) ∧
    (os (settings self) ≠ "Windows" → self' = self).
Proof.
  intros [v Hv].
  destruct (decide (os (settings self) = "Windows")) as [Hw|Hw].
  - eexists. split; [apply (config_options_windows _ v Hw Hv)|].
    repeat apply conj; try reflexivity.
    + intros k Hk. cbn. by rewrite lookup_delete_ne.
    + intros pkg field Hne. rewrite !dep_option_set.
      rewrite decide_False by (intros [-> ->]; apply Hne; auto).
      rewrite decide_False by (intros [-> ->]; apply Hne; auto).
      unfold with_package_options. cbn. unfold dep_option. reflexivity.
    + done.
  - exists self. split; [apply (config_options_other _ Hw)|].
    repeat apply conj; try reflexivity; done.
Qed.

Lemma config_options_frame_witness :
  ∃ self',
    config_options (new_conanfile windows_msvc initial_options) = Ok (tt, self') ∧
    package_options (options self') !! "with_lila" = Some true ∧
    dep_option (options self') "glfw" "shared" = Some true.
Proof.
  destruct (config_options_frame (new_conanfile windows_msvc initial_options))
    as (self' & Hrun & _ & _ & _ & Hown & Hdep & _).
  - exists true. vm_compute. reflexivity.
  - exists self'. split; [exact Hrun|]. split.
    + rewrite Hown by discriminate. vm_compute. reflexivity.
    + rewrite Hdep by (intros [[?|?] _]; discriminate).
      vm_compute. reflexivity.
Defined.

(** ** [configure]: failure, idempotence and commutation *)

Lemma set_dep_option_twice pkg field v self :
  with_deps_package_options
    (λ d, <[pkg := <[field := v]> (default ∅ (d !! pkg))]> d)
    (with_deps_package_options
       (λ d, <[pkg := <[field := v]> (default ∅ (d !! pkg))]> d) self)
  = with_deps_package_options
      (λ d, <[pkg := <[field := v]> (default ∅ (d !! pkg))]> d) self.
Proof.
  unfold with_deps_package_options. cbn. do 2 f_equal.
  rewrite lookup_insert_eq. cbn.
  rewrite !insert_insert_eq. reflexivity.
Qed.

(** Assignments to two different dependencies can be swapped. *)
Lemma set_dep_option_swap pkg1 field1 v1 pkg2 field2 v2 self :
  pkg1 ≠ pkg2 →
  with_deps_package_options
    (λ d, <[pkg1 := <[field1 := v1]> (default ∅ (d !! pkg1))]> d)
    (with_deps_package_options
       (λ d, <[pkg2 := <[field2 := v2]> (default ∅ (d !! pkg2))]> d) self)
  = with_deps_package_options
      (λ d, <[pkg2 := <[field2 := v2]> (default ∅ (d !! pkg2))]> d)
      (with_deps_package_options
         (λ d, <[pkg1 := <[field1 := v1]> (default ∅ (d !! pkg1))]> d) self).
Proof.
  intros Hne. unfold with_deps_package_options. cbn. do 2 f_equal.
  rewrite !lookup_insert_ne by done.
  by apply insert_insert_ne.
Qed.

(** X5. [configure] raises exactly when the option [with_lila] does not
    exist, and then with that error; it never raises anything else. *)
Theorem configure_failure (self : ConanFile) :
  (configure self = Raise (OptionNotExist "with_lila")
   ↔ package_options (options self) !! "with_lila" = None) ∧
  (∀ e, configure self = Raise e → e = OptionNotExist "with_lila").
Proof.
  destruct (package_options (options self) !! "with_lila") as [[]|] eqn:Hl.
  - rewrite (configure_lila_on _ Hl).
    split; [split; discriminate | intros e; discriminate].
  - rewrite (configure_lila_off _ Hl).
    split; [split; discriminate | intros e; discriminate].
  - unfold configure. rewrite (bind_Raise _ _ _ _ (get_option_None _ _ Hl)).
    split; [split; done | intros e [= <-]; reflexivity].
Qed.

(** X6. [configure] is idempotent: a second run returns the state the
    first run produced. *)
Theorem configure_idempotent (self : ConanFile) :
  is_Some (package_options (options self) !! "with_lila") →
  ∃ self', configure self = Ok (tt, self') ∧ configure self' = Ok (tt, self').
Proof.
  intros [[] Hl].
  - exists self. split; apply (configure_lila_on _ Hl).
  - eexists. split; [apply (configure_lila_off _ Hl)|].
    rewrite configure_lila_off by exact Hl.
    by rewrite set_dep_option_twice.
Qed.

Lemma configure_idempotent_witness :
  ∃ self',
    configure (new_conanfile linux_gcc lila_off_options) = Ok (tt, self') ∧
    configure self' = Ok (tt, self').
Proof.
  apply (configure_idempotent (new_conanfile linux_gcc lila_off_options)).
  exists false. vm_compute. reflexivity.
Defined.

(** X7. [config_options] and [configure] commute: run in either order on
    options that hold [fPIC] and [with_lila], both orders succeed and
    reach the same state. *)
Theorem config_options_configure_commute (self : ConanFile) :
  is_Some (package_options (options self) !! "fPIC") →
  is_Some (package_options (options self) !! "with_lila") →
  ∃ self',
    (config_options ;;; configure) self = Ok (tt, self') ∧
    (configure ;;; config_options) self = Ok (tt, self').
Proof.
  intros [v Hv] [b Hl].
  destruct (decide (os (settings self) = "Windows")) as [Hw|Hw].
  - rewrite (bind_Ok _ _ _ _ _ (config_options_windows _ v Hw Hv)).
    destruct b.
    + rewrite (bind_Ok _ _ _ _ _ (configure_lila_on _ Hl)).
      rewrite configure_lila_on by (cbn; by rewrite lookup_delete_ne).
      eexists. split; [reflexivity|].
      apply (config_options_windows _ v Hw Hv).
    + rewrite (bind_Ok _ _ _ _ _ (configure_lila_off _ Hl)).
      rewrite configure_lila_off by (cbn; by rewrite lookup_delete_ne).
      eexists. split; [reflexivity|].
      rewrite (config_options_windows _ v) by (cbn; assumption).
      do 2 f_equal.
      rewrite (set_dep_option_swap "llvm" _ _ "rtaudio") by discriminate.
      rewrite (set_dep_option_swap "llvm" _ _ "ffmpeg") by discriminate.
      reflexivity.
  - rewrite (bind_Ok _ _ _ _ _ (config_options_other _ Hw)).
    destruct b.
    + rewrite (bind_Ok _ _ _ _ _ (configure_lila_on _ Hl)).
      exists self. split;
        [apply (configure_lila_on _ Hl) | apply (config_options_other _ Hw)].
    + rewrite (bind_Ok _ _ _ _ _ (configure_lila_off _ Hl)).
      eexists. split; [apply (configure_lila_off _ Hl)|].
      by apply config_options_other.
Qed.

Lemma config_options_configure_commute_witness :
  ∃ self',
    (config_options ;;; configure)
      (new_conanfile windows_msvc lila_off_options) = Ok (tt, self') ∧
    (configure ;;; config_options)
      (new_conanfile windows_msvc lila_off_options) = Ok (tt, self').
Proof.
  apply (config_options_configure_commute
           (new_conanfile windows_msvc lila_off_options)).
  - exists true. vm_compute. reflexivity.
  - exists false. vm_compute. reflexivity.
Defined.

(** ** [requirements] on a recipe that already holds requirements *)

Lemma existsb_ref_name n l :
  existsb (λ r, String.eqb (ref_name r) n) l = true ↔ n ∈ ref_name <$> l.
Proof.
  induction l as [|a l IH]; simpl.
  - split; [discriminate | intros H; by apply elem_of_nil in H].
  - rewrite orb_true_iff, IH, elem_of_cons, String.eqb_eq.
    split; intros [H|H]; auto.
Qed.

Lemma requires_fresh ref self :
  ref_name ref ∉ required_names self →
  requires ref self = Ok (tt, with_requires [ref] self).
Proof.
  intros Hn. unfold requires.
  destruct (existsb _ (requires_ self)) eqn:He; [|reflexivity].
  exfalso. apply Hn. by apply existsb_ref_name.
Qed.


(** What a call of [self.requires] that returns has done. *)
Lemma requires_inv ref self x self' :
  requires ref self = Ok (x, self') →
  self' = with_requires [ref] self ∧ ref_name ref ∉ required_names self.
Proof.
  unfold requires.
  destruct (existsb _ (requires_ self)) eqn:He; [discriminate|].
  intros [= _ <-]. split; [reflexivity|].
  intros Hin. apply existsb_ref_name in Hin. congruence.
Qed.

(** Two continuations that agree after a successful call agree on the
    whole sequence. *)
Lemma bind_requires_ext {B} ref (k1 k2 : unit → M B) self :
  (∀ self', self' = with_requires [ref] self
            ∧ ref_name ref ∉ required_names self →
     k1 tt self' = k2 tt self') →
  bind (requires ref) k1 self = bind (requires ref) k2 self.
Proof.
  intros Hk. unfold bind.
  destruct (requires ref self) as [[[] self']|e] eqn:Hrun; [|reflexivity].
  apply Hk. by apply (requires_inv ref self tt).
Qed.

Lemma with_requires_app r rs self :
  with_requires rs (with_requires [r] self) = with_requires (r :: rs) self.
Proof.
  unfold with_requires. cbn. by rewrite <- app_assoc.
Qed.

Lemma with_requires_nil self : with_requires [] self = self.
Proof.
  unfold with_requires. rewrite app_nil_r. by destruct self.
Qed.

Lemma required_names_with_requires refs self :
  required_names (with_requires refs self)
  = (required_names self ++ (ref_name <$> refs))%list.
Proof. unfold required_names, with_requires. cbn. apply fmap_app. Qed.

(** A run of calls succeeds when the names are new and pairwise distinct. *)
Lemma requires_all_fresh refs : ∀ self,
  NoDup (ref_name <$> refs) →
  (∀ r, r ∈ refs → ref_name r ∉ required_names self) →
  requires_all refs self = Ok (tt, with_requires refs self).
Proof.
  induction refs as [|r rs IH]; intros self Hnd Hnew.
  - cbn. unfold ret. by rewrite with_requires_nil.
  - cbn [requires_all]. cbn in Hnd. apply NoDup_cons in Hnd as [Hr Hnd].
    rewrite (bind_Ok _ _ _ _ _
               (requires_fresh r self (Hnew r (list_elem_of_here _ _)))).
    rewrite IH; [by rewrite with_requires_app | exact Hnd |].
    intros r' Hr'. rewrite required_names_with_requires.
    apply not_elem_of_app. split.
    + apply Hnew. by apply list_elem_of_further.
    + cbn. rewrite list_elem_of_singleton. intros Heq.
      apply Hr. rewrite <- Heq. by apply list_elem_of_fmap_2.
Qed.


(** [requirements] is the run of [self.requires] over its declared list. *)
Lemma requirements_requires_all self b :
  package_options (options self) !! "with_lila" = Some b →
  requirements self = requires_all (declared (os (settings self)) b) self.
Proof.
  intros Hl. unfold requirements, declared.
  cbn [app requires_all].
  repeat (apply bind_requires_ext; intros ? [-> _]).
  unfold bind at 1. unfold settings_os at 1. cbn [settings with_requires].
  destruct (String.eqb (os (settings self)) "Windows").
  all: repeat (apply bind_requires_ext; intros ? [-> _]).
  all: unfold bind at 1; unfold get_option at 1; cbn [options with_requires];
       rewrite Hl; destruct b; cbn [requires_all].
  all: try reflexivity.
  all: unfold bind; destruct (requires _ _) as [[[] ?]|?]; reflexivity.
Qed.

(** X8. On a recipe that already holds requirements, [requirements]
    appends its declared list after them, in order, when none of the
    declared package names is required yet; settings, options and package
    metadata are unchanged. *)
Theorem requirements_appends (self : ConanFile) (b : bool) :
  package_options (options self) !! "with_lila" = Some b →
  (∀ r, r ∈ declared (os (settings self)) b →
        ref_name r ∉ required_names self) →
  ∃ self', requirements self = Ok (tt, self') ∧
    requires_ self' = (requires_ self ++ declared (os (settings self)) b)%list ∧
    settings self' = settings self ∧
    options self' = options self ∧
    cpp_info self' = cpp_info self.
Proof.
  intros Hl Hnew. exists (with_requires (declared (os (settings self)) b) self).
  split; [|repeat apply conj; reflexivity].
  rewrite (requirements_requires_all _ b Hl).
  apply requires_all_fresh; [apply declared_names_NoDup | exact Hnew].
Qed.

Lemma requirements_appends_witness :
  ∃ self',
    requirements
      (mkConanFile linux_gcc initial_options ["zlib/1.3"; "boost/1.83.0"]
         (mkCppInfo [] ∅ ["bin"] ["lib"]))
    = Ok (tt, self') ∧
    requires_ self' !! 0%nat = Some "zlib/1.3" ∧
    requires_ self' !! 2%nat = Some "rtaudio/5.2.0" ∧
    length (requires_ self') = 13%nat.
Proof.
  destruct (requirements_appends
              (mkConanFile linux_gcc initial_options ["zlib/1.3"; "boost/1.83.0"]
                 (mkCppInfo [] ∅ ["bin"] ["lib"])) true)
    as (self' & Hrun & Hreq & _).
  - vm_compute. reflexivity.
  - apply Forall_forall. apply (bool_decide_unpack _). vm_compute. reflexivity.
  - exists self'. split; [exact Hrun|]. rewrite Hreq.
    repeat split; vm_compute; reflexivity.
Defined.





(** X11. The declared list holds exactly one parallel-computing backend:
    [ms-gsl] is required if and only if the target is Windows, and [tbb]
    if and only if it is not. *)
Theorem requirements_backend (self : ConanFile) :
  requires_ self = [] →
  is_Some (package_options (options self) !! "with_lila") →
  ∃ self', requirements self = Ok (tt, self') ∧
    ("ms-gsl" ∈ required_names self' ↔ os (settings self) = "Windows") ∧
    ("tbb" ∈ required_names self' ↔ os (settings self) ≠ "Windows").
Proof.
  intros Hr [b Hl]. eexists. split; [apply (requirements_run _ Hr b Hl)|].
  unfold required_names, declared. cbn [requires_].
  destruct (String.eqb_spec (os (settings self)) "Windows") as [Hw|Hw].
  - split; (split; [intros Hin | intros Ho]); try done.
    + destruct b; apply (bool_decide_unpack _); vm_compute; reflexivity.
    + exfalso. revert Hin.
      destruct b; apply (bool_decide_unpack _); vm_compute; reflexivity.
  - split; (split; [intros Hin | intros Ho]); try done.
    + exfalso. revert Hin.
      destruct b; apply (bool_decide_unpack _); vm_compute; reflexivity.
    + destruct b; apply (bool_decide_unpack _); vm_compute; reflexivity.
Qed.

Lemma requirements_backend_witness :
  ∃ self',
    requirements (new_conanfile windows_msvc initial_options) = Ok (tt, self') ∧
    ("ms-gsl" ∈ required_names self') ∧ ("tbb" ∉ required_names self').
Proof.
  destruct (requirements_backend (new_conanfile windows_msvc initial_options))
    as (self' & Hrun & Hgsl & Htbb).
  - reflexivity.
  - exists true. vm_compute. reflexivity.
  - exists self'. split; [exact Hrun|]. split.
    + apply Hgsl. reflexivity.
    + intros Hin. apply Htbb in Hin. apply Hin. reflexivity.
Defined.

(** ** [generate]: the whole variable set *)

(** X12. The variables [generate] sets are exactly these: [BUILD_LILA]
    with the value of [with_lila]; [MAYAFLUX_USE_CONAN] true;
    [USE_PPL_BACKEND] true on Windows; [USE_TBB_BACKEND] true off Windows;
    [MAYAFLUX_USE_FMT] true on Macos. No other variable is set, and none
    but [BUILD_LILA] can be false. *)
Theorem generate_variables (self : ConanFile) (b : bool) :
  package_options (options self) !! "with_lila" = Some b →
  ∃ tc : gmap string bool, generate self = Ok (tc, self) ∧
    ∀ k v, tc !! k = Some v ↔
      (k = "BUILD_LILA" ∧ v = b) ∨
      (k = "MAYAFLUX_USE_CONAN" ∧ v = true) ∨
      (k = "USE_PPL_BACKEND" ∧ v = true ∧ os (settings self) = "Windows") ∨
      (k = "USE_TBB_BACKEND" ∧ v = true ∧ os (settings self) ≠ "Windows") ∨
      (k = "MAYAFLUX_USE_FMT" ∧ v = true ∧ os (settings self) = "Macos").
Proof.
  intros Hl. eexists. split; [apply (generate_run _ b Hl)|].
  intros k v.
  destruct (String.eqb_spec (os (settings self)) "Macos") as [Hm|Hm];
    destruct (String.eqb_spec (os (settings self)) "Windows") as [Hw|Hw];
    unfold id; rewrite ?lookup_insert_Some, lookup_empty.
  - rewrite Hm in Hw. discriminate.
  - intuition (simplify_eq; auto 10).
  - intuition (simplify_eq; auto 10).
  - intuition (simplify_eq; auto 10).
Qed.

Lemma generate_variables_witness :
  ∃ tc : gmap string bool,
    generate (new_conanfile macos_clang lila_off_options)
    = Ok (tc, new_conanfile macos_clang lila_off_options) ∧
    tc !! "BUILD_LILA" = Some false ∧
    tc !! "MAYAFLUX_USE_CONAN" = Some true ∧
    tc !! "CMAKE_BUILD_TYPE" = None.
Proof.
  destruct (generate_variables (new_conanfile macos_clang lila_off_options) false)
    as (tc & Hrun & Hvars).
  - vm_compute. reflexivity.
  - exists tc. split; [exact Hrun|]. repeat apply conj.
    + apply Hvars. left. split; reflexivity.
    + apply Hvars. right. left. split; reflexivity.
    + destruct (tc !! "CMAKE_BUILD_TYPE") as [v|] eqn:Hk; [|reflexivity].
      apply Hvars in Hk.
      destruct Hk as [[? _]|[[? _]|[[? _]|[[? _]|[? _]]]]]; discriminate.
Defined.

(** X13. The variables depend on the target system and on [with_lila]
    only: two recipes that agree on these get the same variables from
    [generate], whatever their compiler, architecture, build type, other
    options, dependency options, requirements and package metadata. *)
Theorem generate_depends_on (self1 self2 : ConanFile) :
  os (settings self1) = os (settings self2) →
  package_options (options self1) !! "with_lila"
  = package_options (options self2) !! "with_lila" →
  is_Some (package_options (options self1) !! "with_lila") →
  ∃ tc : gmap string bool,
    generate self1 = Ok (tc, self1) ∧ generate self2 = Ok (tc, self2).
Proof.
  intros Hos Hl [b Hb].
  rewrite (generate_run self1 b Hb).
  rewrite (generate_run self2 b) by (by rewrite <- Hl).
  rewrite Hos. eexists. split; reflexivity.
Qed.

Lemma generate_depends_on_witness :
  ∃ tc : gmap string bool,
    generate (new_conanfile linux_gcc initial_options)
    = Ok (tc, new_conanfile linux_gcc initial_options) ∧
    generate
      (mkConanFile (mkSettings "Linux" "clang" "Debug" "armv8")
         (load_options [("shared", false); ("glfw:shared", false)]
            initial_options)
         ["zlib/1.3"] (mkCppInfo ["x"] ∅ [] []))
    = Ok (tc,
          mkConanFile (mkSettings "Linux" "clang" "Debug" "armv8")
            (load_options [("shared", false); ("glfw:shared", false)]
               initial_options)
            ["zlib/1.3"] (mkCppInfo ["x"] ∅ [] [])).
Proof.
  apply (generate_depends_on (new_conanfile linux_gcc initial_options)).
  - reflexivity.
  - vm_compute. reflexivity.
  - exists true. vm_compute. reflexivity.
Defined.

(** ** [package_info]: the other branches *)

Lemma package_info_run (self : ConanFile) (b : bool) :
  package_options (options self) !! "with_lila" = Some b →
  package_info self
  = Ok (tt, with_cpp_info
              (λ c : CppInfo, mkCppInfo ["MayaFluxLib"]
                 (if b then
                    <["lila" := mkComponent ["Lila"]
                       ["llvm::llvm"; "clang::clang"; "mayaflux::mayaflux"] ]>
                      (components c)
                  else components c)
                 (if String.eqb (os (settings self)) "Windows"
                  then ["bin"] else bindirs c)
                 (if String.eqb (os (settings self)) "Windows"
                  then libdirs c else ["lib"]))
              self).
Proof.
  intros Hl. unfold package_info.
  unfold bind at 1. cbn [set_libs].
  assert (Hl' : ∀ c, package_options (options (with_cpp_info c self))
                       !! "with_lila" = Some b) by (intros c; exact Hl).
  rewrite (bind_Ok _ _ _ _ _ (get_option_Some _ _ _ (Hl' _))).
  unfold bind, settings_os.
  destruct b; cbn;
    destruct (String.eqb (os (settings self)) "Windows"); cbn;
    unfold with_cpp_info; cbn; try reflexivity.
  all: do 3 f_equal; unfold get_component; cbn;
       rewrite lookup_insert_eq; cbn; by rewrite insert_insert_eq.
Qed.

(** X14. With [with_lila] false, [package_info] declares no component:
    the components are those the metadata held before, so [lila] is
    absent unless it was already there; the primary library is still
    [MayaFluxLib]. *)
Theorem package_info_without_lila (self : ConanFile) :
  package_options (options self) !! "with_lila" = Some false →
  ∃ self', package_info self = Ok (tt, self') ∧
    libs (cpp_info self') = ["MayaFluxLib"] ∧
    components (cpp_info self') = components (cpp_info self) ∧
    (components (cpp_info self) !! "lila" = None →
       components (cpp_info self') !! "lila" = None).
Proof.
  intros Hl. eexists. split; [apply (package_info_run _ false Hl)|].
  cbn. repeat apply conj; [reflexivity | reflexivity | done].
Qed.

Lemma package_info_without_lila_witness :
  ∃ self',
    package_info (new_conanfile linux_gcc lila_off_options) = Ok (tt, self') ∧
    libs (cpp_info self') = ["MayaFluxLib"] ∧
    components (cpp_info self') !! "lila" = None.
Proof.
  destruct (package_info_without_lila (new_conanfile linux_gcc lila_off_options))
    as (self' & Hrun & Hlibs & _ & Hnone).
  - vm_compute. reflexivity.
  - exists self'. repeat apply conj; [exact Hrun | exact Hlibs |].
    apply Hnone. reflexivity.
Defined.

(** X15. [package_info] assigns one directory list per target: on Windows
    [bindirs] becomes [bin] and [libdirs] is left as it was; on any other
    target [libdirs] becomes [lib] and [bindirs] is left as it was. *)
Theorem package_info_dirs (self : ConanFile) :
  is_Some (package_options (options self) !! "with_lila") →
  ∃ self', package_info self = Ok (tt, self') ∧
    (os (settings self) = "Windows" →
       bindirs (cpp_info self') = ["bin"] ∧
       libdirs (cpp_info self') = libdirs (cpp_info self)) ∧
    (os (settings self) ≠ "Windows" →
       libdirs (cpp_info self') = ["lib"] ∧
       bindirs (cpp_info self') = bindirs (cpp_info self)).
Proof.
  intros [b Hl]. eexists. split; [apply (package_info_run _ b Hl)|].
  cbn. split; intros Hos.
  - rewrite Hos. split; reflexivity.
  - apply String.eqb_neq in Hos. rewrite Hos. split; reflexivity.
Qed.

Lemma package_info_dirs_witness :
  ∃ self',
    package_info
      (mkConanFile windows_msvc initial_options []
         (mkCppInfo [] ∅ ["tools"] ["lib64"]))
    = Ok (tt, self') ∧
    bindirs (cpp_info self') = ["bin"] ∧
    libdirs (cpp_info self') = ["lib64"].
Proof.
  destruct (package_info_dirs
              (mkConanFile windows_msvc initial_options []
                 (mkCppInfo [] ∅ ["tools"] ["lib64"])))
    as (self' & Hrun & Hwin & _).
  - exists true. vm_compute. reflexivity.
  - exists self'. split; [exact Hrun|]. apply Hwin. reflexivity.
Defined.

(** X16. Frame of [package_info]: settings, options and requirements are
    untouched, and every component other than [lila] is as it was. *)
Theorem package_info_frame (self : ConanFile) :
  is_Some (package_options (options self) !! "with_lila") →
  ∃ self', package_info self = Ok (tt, self') ∧
    settings self' = settings self ∧
    options self' = options self ∧
    requires_ self' = requires_ self ∧
    (∀ name, name ≠ "lila" →
       components (cpp_info self') !! name
       = components (cpp_info self) !! name).
Proof.
  intros [b Hl]. eexists. split; [apply (package_info_run _ b Hl)|].
  cbn. repeat apply conj; try reflexivity.
  intros name Hne. destruct b; [|reflexivity].
  by rewrite lookup_insert_ne.
Qed.

Lemma package_info_frame_witness :
  ∃ self',
    package_info
      (mkConanFile linux_gcc initial_options ["zlib/1.3"]
         (mkCppInfo [] {["core" := mkComponent ["Core"] []]} ["bin"] ["lib"]))
    = Ok (tt, self') ∧
    requires_ self' = ["zlib/1.3"] ∧
    components (cpp_info self') !! "core" = Some (mkComponent ["Core"] []).
Proof.
  destruct (package_info_frame
              (mkConanFile linux_gcc initial_options ["zlib/1.3"]
                 (mkCppInfo [] {["core" := mkComponent ["Core"] []]}
                    ["bin"] ["lib"])))
    as (self' & Hrun & _ & _ & Hreq & Hcomp).
  - exists true. vm_compute. reflexivity.
  - exists self'. split; [exact Hrun|]. split; [exact Hreq|].
    rewrite Hcomp by discriminate. reflexivity.
Defined.

(** X17. [package_info] is idempotent: a second run returns the state the
    first run produced. *)
Theorem package_info_idempotent (self : ConanFile) :
  is_Some (package_options (options self) !! "with_lila") →
  ∃ self', package_info self = Ok (tt, self') ∧
    package_info self' = Ok (tt, self').
Proof.
  intros [b Hl]. eexists. split; [apply (package_info_run _ b Hl)|].
  rewrite (package_info_run _ b) by exact Hl.
  unfold with_cpp_info. cbn. do 2 f_equal.
  destruct b, (String.eqb (os (settings self)) "Windows");
    rewrite ?insert_insert_eq; reflexivity.
Qed.

Lemma package_info_idempotent_witness :
  ∃ self',
    package_info (new_conanfile windows_msvc initial_options) = Ok (tt, self') ∧
    package_info self' = Ok (tt, self').
Proof.
  apply (package_info_idempotent (new_conanfile windows_msvc initial_options)).
  exists true. vm_compute. reflexivity.
Defined.

(** ** The methods in sequence *)




Lemma declared_names_llvm os_ b :
  "llvm" ∈ ref_name <$> declared os_ b ↔ b = true.
Proof.
  unfold declared.
  destruct (String.eqb os_ "Windows"), b;
    (split; intros H; try done;
     first [ apply (bool_decide_unpack _); vm_compute; reflexivity
           | exfalso; revert H; apply (bool_decide_unpack _);
             vm_compute; reflexivity ]).
Qed.

Lemma declared_names_backend os_ b :
  ("ms-gsl" ∈ ref_name <$> declared os_ b ↔ os_ = "Windows") ∧
  ("tbb" ∈ ref_name <$> declared os_ b ↔ os_ ≠ "Windows").
Proof.
  unfold declared.
  destruct (String.eqb_spec os_ "Windows") as [Hw|Hw], b;
    (split; split; intros H; try done;
     first [ apply (bool_decide_unpack _); vm_compute; reflexivity
           | exfalso; revert H; apply (bool_decide_unpack _);
             vm_compute; reflexivity ]).
Qed.

Lemma generate_backend_lookups (os_ : string) (b : bool) :
  let tc : gmap string bool :=
    (if String.eqb os_ "Macos" then <["MAYAFLUX_USE_FMT" := true]> else id)
      ((if String.eqb os_ "Windows"
        then <["USE_PPL_BACKEND" := true]>
        else <["USE_TBB_BACKEND" := true]>)
         (<["MAYAFLUX_USE_CONAN" := true]>
            (<["BUILD_LILA" := b]> (∅ : gmap string bool)))) in
  tc !! "BUILD_LILA" = Some b ∧
  (is_Some (tc !! "USE_PPL_BACKEND") ↔ os_ = "Windows") ∧
  (is_Some (tc !! "USE_TBB_BACKEND") ↔ os_ ≠ "Windows").
Proof.
  cbv zeta.
  destruct (String.eqb os_ "Macos"),
           (String.eqb_spec os_ "Windows") as [Hw|Hw]; unfold id;
    rewrite ?lookup_insert_is_Some, ?lookup_empty, ?is_Some_alt;
    (split; [by rewrite !lookup_insert_ne, lookup_insert_eq by discriminate
                  || by rewrite ?lookup_insert_ne, lookup_insert_eq by discriminate|]);
    intuition (simplify_eq; auto 10).
Qed.

(** X19. The toolchain variables agree with the declared requirements:
    after [requirements] on a recipe with no requirement, [generate] sets
    [BUILD_LILA] true exactly when [llvm] is required, sets
    [USE_PPL_BACKEND] exactly when [ms-gsl] is required, and sets
    [USE_TBB_BACKEND] exactly when [tbb] is required. *)
Theorem generate_agrees_with_requirements (self : ConanFile) :
  requires_ self = [] →
  is_Some (package_options (options self) !! "with_lila") →
  ∃ (self' : ConanFile) (tc : gmap string bool),
    requirements self = Ok (tt, self') ∧
    generate self' = Ok (tc, self') ∧
    (tc !! "BUILD_LILA" = Some true ↔ "llvm" ∈ required_names self') ∧
    (is_Some (tc !! "USE_PPL_BACKEND") ↔ "ms-gsl" ∈ required_names self') ∧
    (is_Some (tc !! "USE_TBB_BACKEND") ↔ "tbb" ∈ required_names self').
Proof.
  intros Hr [b Hl].
  eexists. eexists. split; [apply (requirements_run _ Hr b Hl)|].
  split; [apply (generate_run _ b); exact Hl|].
  unfold required_names. cbn [requires_ settings].
  destruct (generate_backend_lookups (os (settings self)) b)
    as (Hb & Hppl & Htbb).
  destruct (declared_names_backend (os (settings self)) b) as [Hgsl Htbb'].
  split; [|split].
  - rewrite Hb.
    destruct (declared_names_llvm (os (settings self)) b) as [L1 L2].
    split; [intros [= ->]; by apply L2 | intros H; by rewrite (L1 H)].
  - split; [intros H; by apply Hgsl, Hppl | intros H; by apply Hppl, Hgsl].
  - split; [intros H; by apply Htbb', Htbb | intros H; by apply Htbb, Htbb'].
Qed.

Lemma generate_agrees_with_requirements_witness :
  ∃ (self' : ConanFile) (tc : gmap string bool),
    requirements (new_conanfile linux_gcc lila_off_options) = Ok (tt, self') ∧
    generate self' = Ok (tc, self') ∧
    (tc !! "BUILD_LILA" = Some true ↔ "llvm" ∈ required_names self').
Proof.
  destruct (generate_agrees_with_requirements
              (new_conanfile linux_gcc lila_off_options))
    as (self' & tc & Hrun & Hgen & Hlila & _).
  - reflexivity.
  - exists false. vm_compute. reflexivity.
  - exists self', tc. split; [exact Hrun | split; [exact Hgen | exact Hlila]].
Defined.

(** X20. With [with_lila] false, [configure] followed by [requirements]
    leaves a dependency option for a package that is not required: the
    [shared] option of [llvm] is set to false, and [llvm] is not among the
    declared requirements. *)
Theorem llvm_option_without_requirement (self : ConanFile) :
  requires_ self = [] →
  package_options (options self) !! "with_lila" = Some false →
  ∃ self', (configure ;;; requirements) self = Ok (tt, self') ∧
    dep_option (options self') "llvm" "shared" = Some false ∧
    "llvm" ∉ required_names self'.
Proof.
  intros Hr Hl.
  rewrite (bind_Ok _ _ _ _ _ (configure_lila_off _ Hl)).
  eexists. split.
  { apply (requirements_run
             (with_deps_package_options
                (λ d, <["llvm" := <["shared" := false]>
                                    (default ∅ (d !! "llvm"))]> d) self)
             Hr false Hl). }
  split.
  - cbn [options]. rewrite dep_option_set. by rewrite decide_True.
  - unfold required_names. cbn [requires_]. intros Hin.
    by apply declared_names_llvm in Hin.
Qed.

Lemma llvm_option_without_requirement_witness :
  ∃ self',
    (configure ;;; requirements) (new_conanfile linux_gcc lila_off_options)
    = Ok (tt, self') ∧
    dep_option (options self') "llvm" "shared" = Some false ∧
    "llvm" ∉ required_names self'.
Proof.
  apply (llvm_option_without_requirement
           (new_conanfile linux_gcc lila_off_options)).
  - reflexivity.
  - vm_compute. reflexivity.
Defined.

(** X21. With the default options, on every target, each package that
    [default_options] gives a dependency option to ([ffmpeg], [llvm],
    [rtaudio], [glfw], [vulkan-loader]) is among the requirements that
    [requirements] declares. *)
Theorem default_dependency_options_required (s : Settings) (pkg : string) :
  is_Some (deps_package_options initial_options !! pkg) →
  ∃ self', requirements (new_conanfile s initial_options) = Ok (tt, self') ∧
    pkg ∈ required_names self'.
Proof.
  intros Hpkg.
  assert (Hl : package_options (options (new_conanfile s initial_options))
                 !! "with_lila" = Some true) by (vm_compute; reflexivity).
  eexists. split;
    [apply (requirements_run (new_conanfile s initial_options) eq_refl true Hl)|].
  unfold required_names, declared. cbn [requires_ settings new_conanfile].
  revert Hpkg.
  change (deps_package_options initial_options)
    with (<["vulkan-loader" := {["shared" := true]}]>
           (<["glfw" := {["shared" := true]}]>
           (<["rtaudio" := {["shared" := true]}]>
           (<["llvm" := {["shared" := true]}]>
           (<["ffmpeg" := {["shared" := true]}]>
              (∅ : gmap string (gmap string bool))))))).
  rewrite !lookup_insert_is_Some, lookup_empty.
  intros [<-|[_ [<-|[_ [<-|[_ [<-|[_ [<-|[_ H]]]]]]]]]];
    [..| by destruct H];
    destruct (String.eqb (os s) "Windows");
    apply (bool_decide_unpack _); vm_compute; reflexivity.
Qed.

Lemma default_dependency_options_required_witness :
  ∃ self',
    requirements (new_conanfile windows_msvc initial_options) = Ok (tt, self') ∧
    "vulkan-loader" ∈ required_names self'.
Proof.
  apply (default_dependency_options_required windows_msvc "vulkan-loader").
  eexists. vm_compute. reflexivity.
Defined.
